(** * Flame components on rasters: a shallow embedding of
      [flame_components_arcgisRaster.py]

    The module computes mid-flame wind speed, flame length, flame height and
    flame tilt from rasters by map algebra.  The embedding follows the Python
    text function by function.

    Conventions of the embedding.
    - A Python float (and a raster cell) is read as a real number: the
      development is about which formula and which branch the code applies,
      not about rounding.  Division is the total division of [R].
    - A value handed to a function is either a Python scalar or an
      [arcpy.Raster]; map-algebra operators act cell by cell and broadcast
      scalars.
    - The map-algebra functions of [arcpy.sa] ([Ln], [Power], [SquareRoot],
      [ATan], [ASin], [ACos], [Sin]) and the truth value of a raster object
      are not part of the module: they are the fields of the interface
      [ArcpySA].  [Con] is the cell-wise selection.
    - A cell always holds a number: NoData cells are not modelled.
    - [raise Exception(msg)] is the constructor [Exception msg] of [exn];
      computing with an argument left at its default [None] fails inside
      Python or arcpy, which is rendered as [TypeError]; a raster object that
      refuses to be read as a truth value is [ValueError]. *)

From Stdlib Require Import Reals Lra Lia String Ascii List Bool.
Import ListNotations.

Open Scope string_scope.
Open Scope R_scope.

(** ** Exceptions and results *)

Inductive exn : Type :=
| Exception (msg : string)
| TypeError
| IndexError
| ValueError.

Inductive result (A : Type) : Type :=
| Ok (x : A)
| Raise (e : exn).

Arguments Ok {A} x.
Arguments Raise {A} e.

Definition bind {A B : Type} (m : result A) (k : A -> result B) : result B :=
  match m with
  | Ok x => k x
  | Raise e => Raise e
  end.

Notation "x <- m ;; k" := (bind m (fun x => k))
  (at level 61, m at next level, right associativity).

(** An argument whose default is [None], at the point where the code
    computes with it. *)
Definition required {A : Type} (o : option A) : result A :=
  match o with
  | Some x => Ok x
  | None => Raise TypeError
  end.

(** [t[i]] on a tuple. *)
Definition item (t : list R) (i : nat) : result R :=
  match nth_error t i with
  | Some x => Ok x
  | None => Raise IndexError
  end.

(** ** Scalars and rasters *)

(** A cell of the (pre-aligned) grids: row and column. *)
Definition cell : Type := (nat * nat)%type.

Inductive value (A : Type) : Type :=
| Scalar (x : A)
| Raster (g : cell -> A).

Arguments Scalar {A} x.
Arguments Raster {A} g.

(** The content of a value at a cell; a scalar is broadcast. *)
Definition at_cell {A : Type} (v : value A) (c : cell) : A :=
  match v with
  | Scalar x => x
  | Raster g => g c
  end.

Definition local1 {A B : Type} (f : A -> B) (u : value A) : value B :=
  match u with
  | Scalar x => Scalar (f x)
  | Raster g => Raster (fun c => f (g c))
  end.

Definition local2 {A B C : Type} (f : A -> B -> C)
    (u : value A) (v : value B) : value C :=
  match u, v with
  | Scalar x, Scalar y => Scalar (f x y)
  | _, _ => Raster (fun c => f (at_cell u c) (at_cell v c))
  end.

Definition local3 {A B C D : Type} (f : A -> B -> C -> D)
    (u : value A) (v : value B) (w : value C) : value D :=
  match u, v, w with
  | Scalar x, Scalar y, Scalar z => Scalar (f x y z)
  | _, _, _ => Raster (fun c => f (at_cell u c) (at_cell v c) (at_cell w c))
  end.

(** Comparisons of cells, as booleans. *)
Definition R_eqb (x y : R) : bool := if Req_dec_T x y then true else false.
Definition R_leb (x y : R) : bool := if Rle_dec x y then true else false.
Definition R_gtb (x y : R) : bool := if Rgt_dec x y then true else false.
Definition R_geb (x y : R) : bool := if Rge_dec x y then true else false.

Definition select {A : Type} (b : bool) (x y : A) : A := if b then x else y.

(** [Con(cond, true_value, false_value)]. *)
Definition Con (cond : value bool) (t f : value R) : value R :=
  local3 select cond t f.

Definition scalar (x : R) : value R := Scalar x.
Coercion scalar : R >-> value.

Declare Scope raster_scope.
Delimit Scope raster_scope with V.
Bind Scope raster_scope with value.

Notation "x + y" := (local2 Rplus x y) : raster_scope.
Notation "x - y" := (local2 Rminus x y) : raster_scope.
Notation "x * y" := (local2 Rmult x y) : raster_scope.
Notation "x / y" := (local2 Rdiv x y) : raster_scope.
Notation "x == y" := (local2 R_eqb x y) (at level 70, no associativity) : raster_scope.
Notation "x <= y" := (local2 R_leb x y) : raster_scope.
Notation "x > y" := (local2 R_gtb x y) : raster_scope.
Notation "x >= y" := (local2 R_geb x y) : raster_scope.
Notation "x || y" := (local2 orb x y) : raster_scope.

(** ** The part of [arcpy.sa] the module calls *)

Class ArcpySA : Type := {
  Ln_cell : R -> R;
  SquareRoot_cell : R -> R;
  Power_cell : R -> R -> R;
  ATan_cell : R -> R;
  ASin_cell : R -> R;
  ACos_cell : R -> R;
  Sin_cell : R -> R;
  (** [bool(r)] for a raster object [r], as the [if] statement calls it;
      [None] when the object refuses to be read as a truth value. *)
  Raster_bool : (cell -> bool) -> option bool
}.

Section FlameComponents.

Context {sa : ArcpySA}.

Definition Ln (v : value R) : value R := local1 Ln_cell v.
Definition SquareRoot (v : value R) : value R := local1 SquareRoot_cell v.
Definition Power (v p : value R) : value R := local2 Power_cell v p.
Definition ATan (v : value R) : value R := local1 ATan_cell v.
Definition ASin (v : value R) : value R := local1 ASin_cell v.
Definition ACos (v : value R) : value R := local1 ACos_cell v.
Definition Sin (v : value R) : value R := local1 Sin_cell v.

(** The truth value the [if] statement takes of a comparison. *)
Definition truth (b : value bool) : result bool :=
  match b with
  | Scalar x => Ok x
  | Raster g =>
      match Raster_bool g with
      | Some x => Ok x
      | None => Raise ValueError
      end
  end.

(** ** Unit conversions *)

Definition getDegrees (in_data : value R) : value R :=
  (in_data * 180 / PI)%V.

Definition getRadians (in_data : value R) : value R :=
  (in_data * PI / 180)%V.

(** ** Mid-flame wind speed *)

Definition getMidFlameWS (windspeed canopy_cover canopy_ht canopy_baseht : value R)
    (units : string) : value R :=
  let '(windspeed, canopy_ht, canopy_baseht) :=
    if (units =? "SI")%string then
      ((windspeed / (3.6 * 1.15))%V,
       (canopy_ht * 3.28084)%V,
       (canopy_baseht * 3.28084)%V)
    else if (units =? "IMP")%string then
      ((windspeed / 2.23694)%V, canopy_ht, canopy_baseht)
    else (windspeed, canopy_ht, canopy_baseht) in
  let crown_ratio :=
    Con (canopy_ht == 0) 0 ((canopy_ht - canopy_baseht) / canopy_ht)%V in
  let f := (crown_ratio * canopy_cover / 300)%V in
  let canopy_ht := Con (canopy_ht == 0) (0.5 * 3.28084)%V canopy_ht in
  Con (f <= 5)
      (windspeed * 1.83 / Ln ((20 + (0.36 * canopy_ht)) / (0.13 * canopy_ht)))%V
      (windspeed * 0.555 /
         (SquareRoot (f * canopy_ht) *
          Ln ((20 + (0.36 * canopy_ht)) / (0.13 * canopy_ht))))%V.

(** ** Flame length *)

(** [d.get(k)] on a dictionary written as the list of its items. *)
Fixpoint dict_get {V : Type} (d : list (string * V)) (k : string) : option V :=
  match d with
  | [] => None
  | (k', v) :: d' => if (k =? k')%string then Some v else dict_get d' k
  end.

(** Published correlations of flame length with fire intensity. *)
Definition model_dict : list (string * list R) :=
  [ ("Fons_NOWIND", [0.024018; 2/3]);
    ("Thomas_NOWIND", [0.026700; 2/3]);
    ("Yuana_NOWIND", [0.034000; 2/3]);
    ("Barbon_iNOWIND", [0.062000; 0.5336]);
    ("Nelson_BACK", [0.027973; 2/3]);
    ("Fernandes_BACK", [0.029000; 0.7240]);
    ("Clark_BACK", [0.001600; 1.7450]);
    ("Vega_BACK", [0.087000; 0.4930]);
    ("Byram_HEAD", [0.0775; 0.4600]);
    ("Anderson1_HEAD", [0.013876; 0.6510]);
    ("Anderson2_HEAD", [0.008800; 0.6700]);
    ("Newman_HEAD", [0.05770; 0.5000]);
    ("Sneewujagt_HEAD", [0.037680; 0.5000]);
    ("Nelson1_HEAD", [0.044230; 0.5000]);
    ("Clark_HEAD", [0.000722; 0.9934]);
    ("Nelson2_HEAD", [0.047500; 0.4930]);
    ("VanWilgen_HEAD", [0.046000; 0.4128]);
    ("Burrows_HEAD", [0.040480; 0.5740]);
    ("MarsdenSmedley_HEAD", [0.148; 0.403]);
    ("Weise1_HEAD", [0.016000; 0.7000]);
    ("Catchpole_HEAD", [0.032500; 0.5600]);
    ("Fernandes1_HEAD", [0.051600; 0.4530]);
    ("Butler_HEAD", [0.017500; 2/3]);
    ("Fernandes_HEAD", [0.045000; 0.5430]);
    ("Nelson3_HEAD", [0.014200; 2/3]);
    ("Nelson4_HEAD", [0.015500; 2/3]);
    ("Weise2_HEAD", [0.2000000; 0.3400]);
    ("Davies_HEAD", [0.220000; 0.2900]);
    ("Finney_HEAD", [0.01051; 0.774; 0.161]) ].

(** What [getFlameLength] returns: the tuple of parameters, or the flame
    length. *)
Inductive flame_length_result : Type :=
| ModelParams (model_params : list R)
| FlameLength (v : value R).

Definition getFlameLength (model : string) (fire_intensity : value R)
    (flame_depth : option (value R)) (params_only : bool)
    : result flame_length_result :=
  match dict_get model_dict model with
  | None =>
      Raise (Exception "Unable to calculate flame length - Model choice is invalid")
  | Some model_params =>
      if params_only then Ok (ModelParams model_params)
      else if (model =? "Finney_HEAD")%string then
        p0 <- item model_params 0 ;;
        p1 <- item model_params 1 ;;
        p2 <- item model_params 2 ;;
        flame_depth <- required flame_depth ;;
        Ok (FlameLength (p0 * Power fire_intensity p1 / Power flame_depth p2)%V)
      else
        p0 <- item model_params 0 ;;
        p1 <- item model_params 1 ;;
        Ok (FlameLength (p0 * Power fire_intensity p1)%V)
  end.

(** ** Flame height *)

(** [tag == s] for a unit tag whose default is [None]. *)
Definition tag_is (tag : option string) (s : string) : bool :=
  match tag with
  | Some t => (t =? s)%string
  | None => false
  end.

Definition getFlameHeight (model : string) (flame_length : value R)
    (fire_type fire_intensity midflame_ws flame_tilt slope_angle : option (value R))
    (slope_units : option string) : result (value R) :=
  if (model =? "Nelson")%string then
    fire_type <- required fire_type ;;
    fire_intensity <- required fire_intensity ;;
    midflame_ws <- required midflame_ws ;;
    let a := Con ((fire_type == 1) || (fire_type == 2))%V
                 (1 / 360)%V
                 (Con (fire_type == 3)%V 0.0175 0) in
    let height :=
      Con (midflame_ws == 0)%V flame_length (a * fire_intensity / midflame_ws)%V in
    Ok (Con (height > flame_length)%V flame_length height)
  else if (model =? "Finney")%string then
    slope_rad <-
      (if tag_is slope_units "percent" then
         slope_angle <- required slope_angle ;;
         Ok (ATan (slope_angle / 100)%V)
       else if tag_is slope_units "degrees" then
         slope_angle <- required slope_angle ;;
         Ok (getRadians slope_angle)
       else Raise (Exception "Unable to calculate flame height - Slope tilt")) ;;
    flame_tilt <- required flame_tilt ;;
    let tilt_h := (PI / 2 - getRadians flame_tilt)%V in
    slope_angle <- required slope_angle ;;
    Ok (Con (slope_angle <= 1)%V
            (flame_length * Sin tilt_h)%V
            (flame_length * Sin (tilt_h - slope_rad) /
               Sin (getRadians 90 - slope_rad))%V)
  else Raise (Exception "Unable to calculate flame height - Model choice is invalid").

(** ** Flame tilt *)

Definition Butler_missing_parameter : string :=
  "Unable to calculate " ++ String "034" "Butler" ++ String "034" " flame tilt - "
  ++ "Did not pass at least one of the required input parameters".

(** [flame_height == flame_length] under [if]: both may still be at their
    default [None]. *)
Definition same_flame (flame_height flame_length : option (value R))
    : result bool :=
  match flame_height, flame_length with
  | None, None => Ok true
  | Some h, Some l => truth (h == l)%V
  | _, _ => Raise TypeError
  end.

(** The flame tilt angle relative to vertical, in radians: the value of
    [tilt_v] when the dispatch on [model] is left. *)
Definition flame_tilt_v (model : string)
    (flame_length flame_height slope_angle : option (value R))
    (slope_units : option string)
    (windspeed : option (value R)) (windspeed_units : option string)
    (canopy_ht : option (value R)) : result (value R) :=
  if (model =? "Standard")%string then
    flame_height <- required flame_height ;;
    flame_length <- required flame_length ;;
    Ok (ACos (flame_height / flame_length)%V)
  else if (model =? "Finney")%string then
    slope_rad <-
      (if tag_is slope_units "percent" then
         slope_angle <- required slope_angle ;;
         Ok (ATan (slope_angle / 100)%V)
       else if tag_is slope_units "degrees" then
         slope_angle <- required slope_angle ;;
         Ok (getRadians slope_angle)
       else Raise (Exception
              "Unable to calculate flame tilt - Invalid slope units provided")) ;;
    same <- same_flame flame_height flame_length ;;
    if same then Ok (scalar 0)
    else
      flame_height <- required flame_height ;;
      flame_length <- required flame_length ;;
      let tilt_h :=
        (ASin (getRadians
                 (flame_height * getDegrees (Sin (getRadians 90 - slope_rad))
                  / flame_length))
         + slope_rad)%V in
      Ok (PI / 2 - tilt_h)%V
  else if (model =? "Butler")%string then
    match windspeed, windspeed_units, canopy_ht with
    | Some windspeed, Some windspeed_units, Some canopy_ht =>
        let windspeed :=
          if (windspeed_units =? "kph")%string then (windspeed / 3.6)%V
          else if (windspeed_units =? "mph")%string then (windspeed / 2.23694)%V
          else windspeed in
        let uc := (windspeed / (3.6 * (1 + Ln (1 + (28 / canopy_ht)))))%V in
        let g := 9.81 in
        Ok (ATan (SquareRoot ((3 * Power uc 3) / (2 * g * 10))%V))
    | _, _, _ => Raise (Exception Butler_missing_parameter)
    end
  else Raise (Exception "Unable to calculate flame tilt - Model choice is invalid").

Definition getFlameTilt (model : string)
    (flame_length flame_height slope_angle : option (value R))
    (slope_units : option string)
    (windspeed : option (value R)) (windspeed_units : option string)
    (canopy_ht : option (value R)) : result (value R) :=
  tilt_v <- flame_tilt_v model flame_length flame_height slope_angle slope_units
              windspeed windspeed_units canopy_ht ;;
  Ok (Con (tilt_v >= 0)%V (getDegrees tilt_v) 0).

(** ** Flame residence time and flame depth *)

Definition getFlameResidenceTime (ros fuel_consumption midflame_ws : value R)
    (units : string) : value R :=
  let res_time :=
    ((0.39 * Power fuel_consumption 0.25 * Power midflame_ws 1.51)
     / (ros / 60))%V in
  if (units =? "min")%string then (res_time / 60)%V else res_time.

Definition getFlameDepth (ros res_time : value R) : value R :=
  (ros * res_time)%V.

End FlameComponents.

(** The interface read with the functions of real analysis, for a given
    truth value of raster objects. *)
Definition analytic (raster_bool : (cell -> bool) -> option bool) : ArcpySA :=
  {| Ln_cell := ln;
     SquareRoot_cell := sqrt;
     Power_cell := Rpower;
     ATan_cell := atan;
     ASin_cell := asin;
     ACos_cell := acos;
     Sin_cell := sin;
     Raster_bool := raster_bool |}.

(** [bool] of a raster object is refused: map algebra has no truth value for
    a whole raster. *)
Definition analytic_sa : ArcpySA := analytic (fun _ => None).

(** A grid whose cells hold their row number. *)
Definition rows : value R := Raster (fun c => INR (fst c)).

(** A grid whose cells all hold the same value. *)
Definition grid (x : R) : value R := Raster (fun _ => x).

(** What a call gives at a cell: the content of the returned grid there, or
    the exception. *)
Definition result_at (r : result (value R)) (c : cell) : result R :=
  match r with
  | Ok v => Ok (at_cell v c)
  | Raise e => Raise e
  end.

(** The keys of the flame-length registry. *)
Definition model_names : list string := map fst model_dict.

(** The error kinds of the interface.  The code raises the bare [Exception]
    class; a kind is told by the message. *)
Definition InvalidModelError (e : exn) : Prop :=
  e = Exception "Unable to calculate flame length - Model choice is invalid" \/
  e = Exception "Unable to calculate flame height - Model choice is invalid" \/
  e = Exception "Unable to calculate flame tilt - Model choice is invalid".

Definition InvalidUnitError (e : exn) : Prop :=
  e = Exception "Unable to calculate flame height - Slope tilt" \/
  e = Exception "Unable to calculate flame tilt - Invalid slope units provided".

Definition MissingParameterError (e : exn) : Prop :=
  e = Exception Butler_missing_parameter.

(** ** Cell-wise reading of the map-algebra operators *)

Lemma at_cell_local1 {A B : Type} (f : A -> B) (u : value A) (c : cell) :
  at_cell (local1 f u) c = f (at_cell u c).
Proof. destruct u; reflexivity. Qed.

Lemma at_cell_local2 {A B C : Type} (f : A -> B -> C)
    (u : value A) (v : value B) (c : cell) :
  at_cell (local2 f u v) c = f (at_cell u c) (at_cell v c).
Proof. destruct u, v; reflexivity. Qed.

Lemma at_cell_local3 {A B C D : Type} (f : A -> B -> C -> D)
    (u : value A) (v : value B) (w : value C) (c : cell) :
  at_cell (local3 f u v w) c = f (at_cell u c) (at_cell v c) (at_cell w c).
Proof. destruct u, v, w; reflexivity. Qed.

Lemma at_cell_Con (cond : value bool) (t f : value R) (c : cell) :
  at_cell (Con cond t f) c = if at_cell cond c then at_cell t c else at_cell f c.
Proof. unfold Con. rewrite at_cell_local3. reflexivity. Qed.

Lemma at_cell_scalar (x : R) (c : cell) : at_cell (scalar x) c = x.
Proof. reflexivity. Qed.

Create Rewrite HintDb cellwise.

#[global] Hint Rewrite @at_cell_local1 @at_cell_local2 @at_cell_local3
  at_cell_Con at_cell_scalar : cellwise.

Lemma R_eqb_true (x y : R) : x = y -> R_eqb x y = true.
Proof. intros H. unfold R_eqb. destruct (Req_dec_T x y); [reflexivity | contradiction]. Qed.

Lemma R_eqb_false (x y : R) : x <> y -> R_eqb x y = false.
Proof. intros H. unfold R_eqb. destruct (Req_dec_T x y); [contradiction | reflexivity]. Qed.

Lemma R_leb_true (x y : R) : x <= y -> R_leb x y = true.
Proof. intros H. unfold R_leb. destruct (Rle_dec x y); [reflexivity | contradiction]. Qed.

Lemma R_leb_false (x y : R) : ~ x <= y -> R_leb x y = false.
Proof. intros H. unfold R_leb. destruct (Rle_dec x y); [contradiction | reflexivity]. Qed.

Lemma R_gtb_true (x y : R) : x > y -> R_gtb x y = true.
Proof. intros H. unfold R_gtb. destruct (Rgt_dec x y); [reflexivity | contradiction]. Qed.

Lemma R_gtb_false (x y : R) : ~ x > y -> R_gtb x y = false.
Proof. intros H. unfold R_gtb. destruct (Rgt_dec x y); [contradiction | reflexivity]. Qed.

Lemma R_geb_true (x y : R) : x >= y -> R_geb x y = true.
Proof. intros H. unfold R_geb. destruct (Rge_dec x y); [reflexivity | contradiction]. Qed.

Lemma R_geb_false (x y : R) : ~ x >= y -> R_geb x y = false.
Proof. intros H. unfold R_geb. destruct (Rge_dec x y); [contradiction | reflexivity]. Qed.

(** Case analysis on every comparison of cells in the goal. *)
Ltac cases_R :=
  unfold R_eqb, R_leb, R_gtb, R_geb in *;
  repeat match goal with
         | |- context [Req_dec_T ?x ?y] => destruct (Req_dec_T x y)
         | |- context [Rle_dec ?x ?y] => destruct (Rle_dec x y)
         | |- context [Rgt_dec ?x ?y] => destruct (Rgt_dec x y)
         | |- context [Rge_dec ?x ?y] => destruct (Rge_dec x y)
         end;
  cbn [orb andb select] in *.

Ltac cellwise := autorewrite with cellwise; cbn [at_cell scalar].

Lemma model_names_NoDup : NoDup model_names.
Proof.
  unfold model_names, model_dict. cbn [map fst].
  repeat (constructor;
          [ cbn [In]; intros H;
            repeat (destruct H as [H | H]; [discriminate H |]); exact H | ]).
  constructor.
Qed.

Lemma model_names_length : length model_names = 29%nat.
Proof. reflexivity. Qed.

Lemma dict_get_In {V : Type} (d : list (string * V)) (k : string) :
  In k (map fst d) -> exists v, dict_get d k = Some v.
Proof.
  induction d as [| [k' v] d IH]; cbn [map fst In dict_get]; intros H.
  - contradiction.
  - destruct (String.eqb_spec k k') as [-> | Hne].
    + exists v. reflexivity.
    + destruct H as [H | H]; [congruence | exact (IH H)].
Qed.

Lemma dict_get_not_In {V : Type} (d : list (string * V)) (k : string) :
  ~ In k (map fst d) -> dict_get d k = None.
Proof.
  induction d as [| [k' v] d IH]; cbn [map fst In dict_get]; intros H.
  - reflexivity.
  - destruct (String.eqb_spec k k') as [-> | Hne].
    + exfalso. apply H. left. reflexivity.
    + apply IH. intros Hin. apply H. right. exact Hin.
Qed.

Lemma not_InvalidModelError_TypeError : ~ InvalidModelError TypeError.
Proof. unfold InvalidModelError. intuition discriminate. Qed.

Lemma not_InvalidModelError_IndexError : ~ InvalidModelError IndexError.
Proof. unfold InvalidModelError. intuition discriminate. Qed.

Lemma not_InvalidModelError_ValueError : ~ InvalidModelError ValueError.
Proof. unfold InvalidModelError. intuition discriminate. Qed.

Lemma not_InvalidModelError_units (e : exn) :
  InvalidUnitError e -> ~ InvalidModelError e.
Proof.
  unfold InvalidUnitError, InvalidModelError.
  intros [-> | ->]; intuition discriminate.
Qed.

Lemma not_InvalidModelError_missing (e : exn) :
  MissingParameterError e -> ~ InvalidModelError e.
Proof.
  unfold MissingParameterError, InvalidModelError. intros ->.
  cbv [Butler_missing_parameter append]. intuition discriminate.
Qed.

(** The exceptions that do not come from a [raise] of the module are not
    invalid-model errors. *)
Ltac foreign_error :=
  first [ exact not_InvalidModelError_TypeError
        | exact not_InvalidModelError_IndexError
        | exact not_InvalidModelError_ValueError ].

(** Run a chain of [bind]s that is known to end in [Raise], by cases on the
    optional arguments and the tests on the way. *)
Ltac raised :=
  repeat (cbn [bind required] in *;
          match goal with
          | H : Ok _ = Raise _ |- _ => discriminate H
          | H : Raise _ = Raise _ |- _ => injection H as <-
          | H : context [required ?o] |- _ => destruct o
          | H : context [match ?v with Scalar _ => _ | Raster _ => _ end] |- _ =>
              destruct v eqn:?
          | H : context [match ?o with Some _ => _ | None => _ end] |- _ =>
              destruct o eqn:?
          | H : context [if ?b then _ else _] |- _ => destruct b eqn:?
          end).

Section Properties.

Context {sa : ArcpySA}.

(** ** Flame length *)

(** C1 (as amended): the registry of [getFlameLength] holds 29 distinct keys.
    For each of them, with [params_only] false: for ["Finney_HEAD"] and a
    given flame depth the result is
    [0.01051 * intensity^0.774 / flame_depth^0.161]; for every other key the
    registry gives two coefficients [a], [b] and the result is
    [a * intensity^b].  In particular ["Byram_HEAD"] at intensity 100 gives
    [0.0775 * 100^0.46], and ["Finney_HEAD"] at intensity 100 and flame depth
    2 gives [0.01051 * 100^0.774 / 2^0.161]. *)
Theorem getFlameLength_registry :
  length model_names = 29%nat /\
  NoDup model_names /\
  (forall (model : string) (fire_intensity : value R)
          (flame_depth : option (value R)),
      In model model_names ->
      (model = "Finney_HEAD" ->
       forall depth : value R, flame_depth = Some depth ->
         getFlameLength model fire_intensity flame_depth false
         = Ok (FlameLength
                 (0.01051 * Power fire_intensity 0.774 / Power depth 0.161)%V))
      /\
      (model <> "Finney_HEAD" ->
       exists a b : R,
         dict_get model_dict model = Some [a; b] /\
         getFlameLength model fire_intensity flame_depth false
         = Ok (FlameLength (a * Power fire_intensity b)%V))) /\
  getFlameLength "Byram_HEAD" 100 None false
  = Ok (FlameLength (Scalar (0.0775 * Power_cell 100 0.46))) /\
  getFlameLength "Finney_HEAD" 100 (Some (scalar 2)) false
  = Ok (FlameLength
          (Scalar (0.01051 * Power_cell 100 0.774 / Power_cell 2 0.161))).
Proof.
  split; [exact model_names_length |].
  split; [exact model_names_NoDup |].
  split.
  - intros model fire_intensity flame_depth Hin.
    unfold model_names, model_dict in Hin. cbn [map fst In] in Hin.
    repeat (destruct Hin as [<- | Hin];
            [ split;
              [ intros Heq; try discriminate Heq;
                intros depth ->; reflexivity
              | intros Hne; try (exfalso; apply Hne; reflexivity);
                do 2 eexists; split; reflexivity ] | ]).
    contradiction.
  - split.
    + replace 0.46 with 0.4600 by lra. reflexivity.
    + reflexivity.
Qed.

(** ** Flame height *)

(** C2: in the "Nelson" sub-model of [getFlameHeight] the coefficient [a] is
    [1/360] in the cells where the fire type is 1 or 2, [0.0175] where it is
    3 and [0] elsewhere; the raw height is [a * fire_intensity / midflame_ws]
    except in the cells where [midflame_ws = 0], where it is the flame
    length; the returned height is the flame length in the cells where the
    raw height exceeds it and the raw height elsewhere, so it never exceeds
    the flame length. *)
Theorem getFlameHeight_Nelson
    (flame_length fire_type fire_intensity midflame_ws : value R)
    (flame_tilt slope_angle : option (value R)) (slope_units : option string) :
  exists a height out : value R,
    getFlameHeight "Nelson" flame_length (Some fire_type) (Some fire_intensity)
      (Some midflame_ws) flame_tilt slope_angle slope_units = Ok out /\
    forall c : cell,
      (at_cell fire_type c = 1 \/ at_cell fire_type c = 2 ->
       at_cell a c = 1 / 360) /\
      (at_cell fire_type c = 3 -> at_cell a c = 0.0175) /\
      (at_cell fire_type c <> 1 -> at_cell fire_type c <> 2 ->
       at_cell fire_type c <> 3 -> at_cell a c = 0) /\
      (at_cell midflame_ws c = 0 -> at_cell height c = at_cell flame_length c) /\
      (at_cell midflame_ws c <> 0 ->
       at_cell height c
       = at_cell a c * at_cell fire_intensity c / at_cell midflame_ws c) /\
      (at_cell height c > at_cell flame_length c ->
       at_cell out c = at_cell flame_length c) /\
      (~ at_cell height c > at_cell flame_length c ->
       at_cell out c = at_cell height c) /\
      at_cell out c <= at_cell flame_length c.
Proof.
  unfold getFlameHeight. rewrite String.eqb_refl. cbn [required bind].
  set (a := Con ((fire_type == 1) || (fire_type == 2))%V (1 / 360)%V
                (Con (fire_type == 3)%V 0.0175 0)).
  set (height := Con (midflame_ws == 0)%V flame_length
                     (a * fire_intensity / midflame_ws)%V).
  exists a, height. eexists. split; [reflexivity |].
  intros c. subst height a. cellwise.
  repeat split; intros; cases_R; try reflexivity; lra.
Qed.

(** ** Unrecognised model names *)

(** C3 (as amended): the registry of [getFlameLength] holds 29 distinct keys.
    A model name that is not one of them makes [getFlameLength] raise the
    invalid-model error, a name other than "Nelson" and "Finney" makes
    [getFlameHeight] raise it, and a name other than "Standard", "Finney" and
    "Butler" makes [getFlameTilt] raise it; no result is produced.  With a
    recognised name none of the three raises that error. *)
Theorem invalid_model_raised :
  length model_names = 29%nat /\
  NoDup model_names /\
  (forall (model : string) (fire_intensity : value R)
          (flame_depth : option (value R)) (params_only : bool),
      (~ In model model_names ->
       exists e, InvalidModelError e /\
         getFlameLength model fire_intensity flame_depth params_only = Raise e)
      /\
      (In model model_names ->
       forall e,
         getFlameLength model fire_intensity flame_depth params_only = Raise e ->
         ~ InvalidModelError e)) /\
  (forall (model : string) (flame_length : value R)
          (fire_type fire_intensity midflame_ws flame_tilt slope_angle
             : option (value R)) (slope_units : option string),
      (model <> "Nelson" -> model <> "Finney" ->
       exists e, InvalidModelError e /\
         getFlameHeight model flame_length fire_type fire_intensity midflame_ws
           flame_tilt slope_angle slope_units = Raise e)
      /\
      (model = "Nelson" \/ model = "Finney" ->
       forall e,
         getFlameHeight model flame_length fire_type fire_intensity midflame_ws
           flame_tilt slope_angle slope_units = Raise e ->
         ~ InvalidModelError e)) /\
  (forall (model : string)
          (flame_length flame_height slope_angle : option (value R))
          (slope_units : option string) (windspeed : option (value R))
          (windspeed_units : option string) (canopy_ht : option (value R)),
      (model <> "Standard" -> model <> "Finney" -> model <> "Butler" ->
       exists e, InvalidModelError e /\
         getFlameTilt model flame_length flame_height slope_angle slope_units
           windspeed windspeed_units canopy_ht = Raise e)
      /\
      (model = "Standard" \/ model = "Finney" \/ model = "Butler" ->
       forall e,
         getFlameTilt model flame_length flame_height slope_angle slope_units
           windspeed windspeed_units canopy_ht = Raise e ->
         ~ InvalidModelError e)).
Proof.
  split; [exact model_names_length |].
  split; [exact model_names_NoDup |].
  split; [| split].
  - intros model fire_intensity flame_depth params_only. split.
    + intros Hnot. eexists. split; [left; reflexivity |].
      unfold getFlameLength.
      rewrite (dict_get_not_In model_dict model Hnot). reflexivity.
    + intros Hin e. unfold getFlameLength.
      destruct (dict_get_In model_dict model Hin) as [params ->].
      unfold item. intros H. raised; try foreign_error.
  - intros model flame_length fire_type fire_intensity midflame_ws flame_tilt
      slope_angle slope_units. split.
    + intros H1 H2. eexists. split; [right; left; reflexivity |].
      unfold getFlameHeight.
      apply String.eqb_neq in H1, H2. rewrite H1, H2. reflexivity.
    + intros Hm e. unfold getFlameHeight.
      destruct Hm as [-> | ->]; cbn [String.eqb Ascii.eqb Bool.eqb];
        intros H; raised; try foreign_error;
        apply not_InvalidModelError_units; left; reflexivity.
  - intros model flame_length flame_height slope_angle slope_units windspeed
      windspeed_units canopy_ht. split.
    + intros H1 H2 H3. eexists. split; [right; right; reflexivity |].
      unfold getFlameTilt, flame_tilt_v.
      apply String.eqb_neq in H1, H2, H3. rewrite H1, H2, H3. reflexivity.
    + intros Hm e. unfold getFlameTilt, flame_tilt_v, same_flame, truth.
      destruct Hm as [-> | [-> | ->]]; cbn [String.eqb Ascii.eqb Bool.eqb];
        intros H; raised; try foreign_error;
        try (apply not_InvalidModelError_units; right; reflexivity);
        try (apply not_InvalidModelError_missing; reflexivity).
Qed.

(** ** Flame tilt *)

Lemma at_cell_getDegrees (v : value R) (c : cell) :
  at_cell (getDegrees v) c = at_cell v c * 180 / PI.
Proof. unfold getDegrees. cellwise. reflexivity. Qed.

Lemma degrees_nonneg (x : R) : x >= 0 -> x * 180 / PI >= 0.
Proof.
  intros H. pose proof (Rinv_0_lt_compat PI PI_RGT_0) as Hpi.
  unfold Rdiv. apply Rle_ge. apply Rmult_le_pos; lra.
Qed.

(** C4: whenever [getFlameTilt] returns, the model is one of "Standard",
    "Finney" and "Butler", the vertical-relative tilt [tilt_v] of that
    sub-model has been computed, and the returned grid holds
    [degrees(tilt_v)] in every cell where [tilt_v >= 0] and [0] in every cell
    where [tilt_v] is negative; it is negative in no cell. *)
Theorem getFlameTilt_clamped (model : string)
    (flame_length flame_height slope_angle : option (value R))
    (slope_units : option string) (windspeed : option (value R))
    (windspeed_units : option string) (canopy_ht : option (value R))
    (out : value R) :
  getFlameTilt model flame_length flame_height slope_angle slope_units
    windspeed windspeed_units canopy_ht = Ok out ->
  (model = "Standard" \/ model = "Finney" \/ model = "Butler") /\
  exists tilt_v : value R,
    flame_tilt_v model flame_length flame_height slope_angle slope_units
      windspeed windspeed_units canopy_ht = Ok tilt_v /\
    forall c : cell,
      (at_cell tilt_v c >= 0 ->
       at_cell out c = at_cell (getDegrees tilt_v) c /\
       at_cell out c = at_cell tilt_v c * 180 / PI) /\
      (at_cell tilt_v c < 0 -> at_cell out c = 0) /\
      at_cell out c >= 0.
Proof.
  unfold getFlameTilt. intros H. split.
  - unfold flame_tilt_v in H.
    destruct (String.eqb_spec model "Standard") as [-> | _]; [auto |].
    destruct (String.eqb_spec model "Finney") as [-> | _]; [auto |].
    destruct (String.eqb_spec model "Butler") as [-> | _]; [auto |].
    discriminate H.
  - destruct (flame_tilt_v model flame_length flame_height slope_angle
                slope_units windspeed windspeed_units canopy_ht)
      as [tilt_v | e]; [| discriminate H].
    cbn [bind] in H. injection H as <-.
    exists tilt_v. split; [reflexivity |].
    intros c. rewrite at_cell_Con, at_cell_local2, at_cell_getDegrees.
    cbn [at_cell scalar]. repeat split; intros; cases_R; try lra.
    apply degrees_nonneg. assumption.
Qed.

(** ** Mid-flame wind speed *)

(** C6: in [getMidFlameWS] the crown ratio is taken from the canopy height
    as given (after the conversion of units), and only then is a canopy
    height of 0 replaced by [0.5 * 3.28084].  In a cell where the canopy
    height is 0 the crown ratio is 0 whatever the base height and the cover,
    the first formula applies and the output is
    [windspeed * 1.83 / ln((20 + 0.36 h) / (0.13 h))] with
    [h = 0.5 * 3.28084], the wind speed being in m/s.  In a cell where it is
    not 0 the crown ratio is [(height - base_height) / height] and the height
    is left as it is. *)
Theorem getMidFlameWS_canopy_zero
    (windspeed canopy_cover canopy_ht canopy_baseht : value R)
    (units : string) (c : cell) :
  let ws :=
    if (units =? "SI")%string then at_cell windspeed c / (3.6 * 1.15)
    else if (units =? "IMP")%string then at_cell windspeed c / 2.23694
    else at_cell windspeed c in
  let feet (x : R) := if (units =? "SI")%string then x * 3.28084 else x in
  let height := feet (at_cell canopy_ht c) in
  let base := feet (at_cell canopy_baseht c) in
  let out :=
    at_cell (getMidFlameWS windspeed canopy_cover canopy_ht canopy_baseht units) c in
  (at_cell canopy_ht c = 0 ->
   out = ws * 1.83
         / Ln_cell ((20 + 0.36 * (0.5 * 3.28084)) / (0.13 * (0.5 * 3.28084))))
  /\
  (at_cell canopy_ht c <> 0 ->
   let f := (height - base) / height * at_cell canopy_cover c / 300 in
   (f <= 5 ->
    out = ws * 1.83 / Ln_cell ((20 + 0.36 * height) / (0.13 * height))) /\
   (~ f <= 5 ->
    out = ws * 0.555
          / (SquareRoot_cell (f * height)
             * Ln_cell ((20 + 0.36 * height) / (0.13 * height))))).
Proof.
  unfold getMidFlameWS, Ln, SquareRoot.
  destruct (units =? "SI")%string; [| destruct (units =? "IMP")%string];
    cbv zeta; cellwise;
    (split; [intros H0 | intros H0; split; intros Hf]);
    cases_R; try reflexivity; try lra.
Qed.

(** C7: with a [units] string other than "SI" and "IMP", [getMidFlameWS]
    converts nothing: wind speed, canopy height and canopy base height enter
    the crown ratio and the wind reduction as they were given, and the call
    returns the grid computed from them (the function has no [raise]). *)
Theorem getMidFlameWS_unconverted
    (windspeed canopy_cover canopy_ht canopy_baseht : value R) (units : string) :
  units <> "SI" -> units <> "IMP" ->
  getMidFlameWS windspeed canopy_cover canopy_ht canopy_baseht units
  = (let crown_ratio :=
       Con (canopy_ht == 0) 0 ((canopy_ht - canopy_baseht) / canopy_ht) in
     let f := crown_ratio * canopy_cover / 300 in
     let height := Con (canopy_ht == 0) (0.5 * 3.28084) canopy_ht in
     Con (f <= 5)
         (windspeed * 1.83 / Ln ((20 + (0.36 * height)) / (0.13 * height)))
         (windspeed * 0.555 /
            (SquareRoot (f * height) *
             Ln ((20 + (0.36 * height)) / (0.13 * height)))))%V.
Proof.
  intros HSI HIMP. unfold getMidFlameWS.
  apply String.eqb_neq in HSI, HIMP. rewrite HSI, HIMP. reflexivity.
Qed.

(** ** The sub-models of flame height and flame tilt *)

(** C8: [getFlameTilt] with model "Butler" raises the missing-parameter
    error as soon as one of [windspeed], [windspeed_units], [canopy_ht] is
    absent, whichever it is; with the three present it raises nothing and
    returns a grid. *)
Theorem Butler_requires_three_inputs
    (flame_length flame_height slope_angle : option (value R))
    (slope_units : option string) (windspeed : option (value R))
    (windspeed_units : option string) (canopy_ht : option (value R)) :
  (windspeed = None \/ windspeed_units = None \/ canopy_ht = None ->
   exists e, MissingParameterError e /\
     getFlameTilt "Butler" flame_length flame_height slope_angle slope_units
       windspeed windspeed_units canopy_ht = Raise e) /\
  (windspeed <> None -> windspeed_units <> None -> canopy_ht <> None ->
   exists out : value R,
     getFlameTilt "Butler" flame_length flame_height slope_angle slope_units
       windspeed windspeed_units canopy_ht = Ok out).
Proof.
  unfold getFlameTilt, flame_tilt_v. cbn [String.eqb Ascii.eqb Bool.eqb].
  split.
  - intros H. exists (Exception Butler_missing_parameter).
    split; [reflexivity |].
    destruct windspeed, windspeed_units, canopy_ht; try reflexivity.
    destruct H as [H | [H | H]]; discriminate H.
  - intros H1 H2 H3.
    destruct windspeed; [| contradiction].
    destruct windspeed_units; [| contradiction].
    destruct canopy_ht; [| contradiction].
    eexists. reflexivity.
Qed.

(** C9: where the slope is converted -- "Finney" in [getFlameHeight] and
    "Finney" in [getFlameTilt] -- a [slope_units] that is neither "degrees"
    nor "percent" ([None] included) raises the invalid-unit error and nothing
    is returned; with "percent" the slope in radians that enters the result
    is [ATan(slope_angle / 100)], with "degrees" it is
    [slope_angle * pi / 180]. *)
Theorem slope_units_checked
    (flame_length : value R)
    (fire_type fire_intensity midflame_ws : option (value R))
    (windspeed : option (value R)) (windspeed_units : option string)
    (canopy_ht : option (value R)) :
  (forall (flame_tilt slope_angle length height : option (value R))
          (slope_units : option string),
      slope_units <> Some "degrees" -> slope_units <> Some "percent" ->
      exists e1 e2, InvalidUnitError e1 /\ InvalidUnitError e2 /\
        getFlameHeight "Finney" flame_length fire_type fire_intensity
          midflame_ws flame_tilt slope_angle slope_units = Raise e1 /\
        getFlameTilt "Finney" length height slope_angle slope_units
          windspeed windspeed_units canopy_ht = Raise e2) /\
  (forall (units : string) (slope_angle slope_rad : value R),
      units = "percent" /\ slope_rad = ATan (slope_angle / 100)%V \/
      units = "degrees" /\ slope_rad = (slope_angle * PI / 180)%V ->
      (forall flame_tilt : value R,
          getFlameHeight "Finney" flame_length fire_type fire_intensity
            midflame_ws (Some flame_tilt) (Some slope_angle) (Some units)
          = Ok (Con (slope_angle <= 1)
                    (flame_length * Sin (PI / 2 - getRadians flame_tilt))
                    (flame_length
                     * Sin (PI / 2 - getRadians flame_tilt - slope_rad)
                     / Sin (getRadians 90 - slope_rad)))%V) /\
      (forall length height : value R,
          truth (height == length)%V = Ok false ->
          flame_tilt_v "Finney" (Some length) (Some height) (Some slope_angle)
            (Some units) windspeed windspeed_units canopy_ht
          = Ok (PI / 2
                - (ASin (getRadians
                           (height
                            * getDegrees (Sin (getRadians 90 - slope_rad))
                            / length))
                   + slope_rad))%V)).
Proof.
  split.
  - intros flame_tilt slope_angle length height slope_units Hd Hp.
    assert (Hd' : tag_is slope_units "degrees" = false).
    { destruct slope_units as [u |]; [| reflexivity]. cbn [tag_is].
      apply String.eqb_neq. congruence. }
    assert (Hp' : tag_is slope_units "percent" = false).
    { destruct slope_units as [u |]; [| reflexivity]. cbn [tag_is].
      apply String.eqb_neq. congruence. }
    do 2 eexists.
    split; [left; reflexivity |]. split; [right; reflexivity |].
    unfold getFlameHeight, getFlameTilt, flame_tilt_v.
    cbn [String.eqb Ascii.eqb Bool.eqb]. rewrite Hd', Hp'.
    split; reflexivity.
  - intros units slope_angle slope_rad [[-> ->] | [-> ->]]; split.
    + intros flame_tilt. reflexivity.
    + intros length height Hsame.
      unfold flame_tilt_v, same_flame.
      cbn [String.eqb Ascii.eqb Bool.eqb tag_is required bind].
      rewrite Hsame. reflexivity.
    + intros flame_tilt. reflexivity.
    + intros length height Hsame.
      unfold flame_tilt_v, same_flame.
      cbn [String.eqb Ascii.eqb Bool.eqb tag_is required bind].
      rewrite Hsame. reflexivity.
Qed.

(** C10: in [getFlameTilt] with model "Butler" and the three inputs present,
    a [windspeed_units] other than "kph" and "mph" -- "mps" or any other
    string -- raises nothing and leaves the wind speed as given: it enters
    [uc = windspeed / (3.6 * (1 + ln(1 + 28 / canopy_ht)))] and the tilt as
    if it were in metres per second. *)
Theorem Butler_unconverted_windspeed
    (flame_length flame_height slope_angle : option (value R))
    (slope_units : option string) (windspeed canopy_ht : value R)
    (windspeed_units : string) :
  windspeed_units <> "kph" -> windspeed_units <> "mph" ->
  let uc := (windspeed / (3.6 * (1 + Ln (1 + (28 / canopy_ht)))))%V in
  let tilt_v := ATan (SquareRoot ((3 * Power uc 3) / (2 * 9.81 * 10))%V) in
  getFlameTilt "Butler" flame_length flame_height slope_angle slope_units
    (Some windspeed) (Some windspeed_units) (Some canopy_ht)
  = Ok (Con (tilt_v >= 0)%V (getDegrees tilt_v) 0) /\
  getFlameTilt "Butler" flame_length flame_height slope_angle slope_units
    (Some windspeed) (Some windspeed_units) (Some canopy_ht)
  = getFlameTilt "Butler" flame_length flame_height slope_angle slope_units
      (Some windspeed) (Some "mps") (Some canopy_ht).
Proof.
  intros Hkph Hmph. unfold getFlameTilt, flame_tilt_v.
  cbn [String.eqb Ascii.eqb Bool.eqb].
  apply String.eqb_neq in Hkph, Hmph. rewrite Hkph, Hmph.
  split; reflexivity.
Qed.

(** Where the module selects by [Con], a grid whose cells all hold the same
    value gives in every cell what the scalar gives: in [getMidFlameWS], in
    both sub-models of [getFlameHeight], and in [getFlameTilt] outside
    "Finney". *)
Lemma constant_grids_as_scalars (c : cell) :
  (forall (w cc h b : R) (units : string),
      at_cell (getMidFlameWS (grid w) (grid cc) (grid h) (grid b) units) c
      = at_cell (getMidFlameWS w cc h b units) c) /\
  (forall (model : string) (l : R) (ft fi ws tilt angle : option R)
          (slope_units : option string),
      result_at (getFlameHeight model (grid l) (option_map grid ft)
                   (option_map grid fi) (option_map grid ws)
                   (option_map grid tilt) (option_map grid angle) slope_units) c
      = result_at (getFlameHeight model l (option_map scalar ft)
                     (option_map scalar fi) (option_map scalar ws)
                     (option_map scalar tilt) (option_map scalar angle)
                     slope_units) c) /\
  (forall (model : string) (l h angle : option R) (slope_units : option string)
          (ws : option R) (windspeed_units : option string) (ch : option R),
      model <> "Finney" ->
      result_at (getFlameTilt model (option_map grid l) (option_map grid h)
                   (option_map grid angle) slope_units (option_map grid ws)
                   windspeed_units (option_map grid ch)) c
      = result_at (getFlameTilt model (option_map scalar l)
                     (option_map scalar h) (option_map scalar angle)
                     slope_units (option_map scalar ws) windspeed_units
                     (option_map scalar ch)) c).
Proof.
  split; [| split].
  - intros w cc h b units. unfold getMidFlameWS.
    destruct (units =? "SI")%string; [| destruct (units =? "IMP")%string];
      reflexivity.
  - intros model l ft fi ws tilt angle slope_units. unfold getFlameHeight.
    destruct (model =? "Nelson")%string;
      [| destruct (model =? "Finney")%string;
         [destruct (tag_is slope_units "percent");
          [| destruct (tag_is slope_units "degrees")] |]];
      destruct ft, fi, ws, tilt, angle; reflexivity.
  - intros model l h angle slope_units ws windspeed_units ch Hmodel.
    apply String.eqb_neq in Hmodel.
    unfold getFlameTilt, flame_tilt_v. rewrite Hmodel.
    destruct (model =? "Standard")%string;
      [| destruct (model =? "Butler")%string];
      destruct l, h, ws, windspeed_units as [u |], ch; try reflexivity;
      cbn [option_map];
      (destruct (u =? "kph")%string; [reflexivity |]);
      destruct (u =? "mph")%string; reflexivity.
Qed.

(** The "Finney" tilt on grids whose cells all hold the same value: the test
    [flame_height == flame_length] is made by [if] on the raster of the
    cell-wise comparison, so the outcome is what the truth value of that
    raster object makes it. *)
Lemma Finney_tilt_on_grids (h l angle : R) :
  flame_tilt_v "Finney" (Some (grid l)) (Some (grid h)) (Some (grid angle))
    (Some "degrees") None None None
  = match Raster_bool (fun _ => R_eqb h l) with
    | None => Raise ValueError
    | Some true => Ok (scalar 0)
    | Some false =>
        Ok (PI / 2
            - (ASin (getRadians
                       (grid h
                        * getDegrees (Sin (getRadians 90 - getRadians (grid angle)))
                        / grid l))
               + getRadians (grid angle)))%V
    end.
Proof.
  unfold flame_tilt_v, same_flame, truth, grid.
  cbn [String.eqb Ascii.eqb Bool.eqb tag_is required bind local2 at_cell].
  destruct (Raster_bool (fun _ => R_eqb h l)) as [[|] |]; reflexivity.
Qed.

End Properties.

(** ** The theorems at concrete inputs *)

(** The registry does not have 27 keys: it has 29, all distinct. *)
Lemma model_dict_not_27_keys :
  NoDup model_names /\ length model_names = 29%nat /\
  length model_names <> 27%nat.
Proof.
  split; [exact model_names_NoDup |].
  split; [reflexivity | discriminate].
Qed.

Lemma getFlameLength_registry_witness :
  In "Clark_BACK" model_names /\
  getFlameLength (sa := analytic_sa) "Clark_BACK" rows None false
  = Ok (FlameLength (0.001600 * Power (sa := analytic_sa) rows 1.7450)%V).
Proof.
  assert (Hin : In "Clark_BACK" model_names).
  { unfold model_names, model_dict. cbn [map fst In]. tauto. }
  split; [exact Hin |].
  destruct (getFlameLength_registry (sa := analytic_sa)) as (_ & _ & H & _).
  destruct (H "Clark_BACK" rows None Hin) as [_ H2].
  destruct H2 as (a & b & Hab & ->); [discriminate |].
  unfold model_dict in Hab.
  cbn [dict_get String.eqb Ascii.eqb Bool.eqb] in Hab.
  injection Hab as <- <-. reflexivity.
Defined.

Lemma getFlameHeight_Nelson_witness :
  exists out : value R,
    getFlameHeight (sa := analytic_sa) "Nelson" (grid 2)
      (Some (grid 1)) (Some (grid 3600))
      (Some (grid 1)) None None None = Ok out /\
    at_cell out (0%nat, 0%nat) = 2.
Proof.
  destruct (getFlameHeight_Nelson (sa := analytic_sa) (grid 2)
              (grid 1) (grid 3600)
              (grid 1) None None None)
    as (a & height & out & Hout & Hc).
  exists out. split; [exact Hout |].
  destruct (Hc (0%nat, 0%nat)) as (Ha & _ & _ & _ & Hh & Hclamp & _).
  cbn [at_cell grid] in *.
  apply Hclamp. rewrite Hh by lra. rewrite Ha by (left; reflexivity). lra.
Defined.

(** Whatever 27 names are taken for the registry, a name outside them is
    accepted by [getFlameLength]. *)
Lemma getFlameLength_accepts_beyond_27 :
  forall names : list string, length names = 27%nat ->
    exists (model : string) (params : list R),
      ~ In model names /\
      getFlameLength (sa := analytic_sa) model rows None true
      = Ok (ModelParams params).
Proof.
  intros names Hlen.
  destruct (Forall_Exists_dec (fun k => In k names)
              (fun k => in_dec string_dec k names) model_names) as [Hall | Hex].
  - exfalso.
    assert (Hincl : incl model_names names).
    { intros k Hk. rewrite Forall_forall in Hall. exact (Hall k Hk). }
    pose proof (NoDup_incl_length model_names_NoDup Hincl) as Hle.
    rewrite model_names_length, Hlen in Hle. lia.
  - apply Exists_exists in Hex. destruct Hex as (model & Hin & Hout).
    destruct (dict_get_In model_dict model Hin) as [params Hget].
    exists model, params. split; [exact Hout |].
    unfold getFlameLength. rewrite Hget. reflexivity.
Qed.

(** No 27 names are the registry: [getFlameLength] does not raise on every
    name outside them. *)
Lemma getFlameLength_registry_exceeds_27 :
  ~ exists names : list string,
      length names = 27%nat /\
      forall model : string, ~ In model names ->
        exists e, InvalidModelError e /\
          getFlameLength (sa := analytic_sa) model rows None true = Raise e.
Proof.
  intros (names & Hlen & Hraise).
  destruct (getFlameLength_accepts_beyond_27 names Hlen)
    as (model & params & Hout & Hok).
  destruct (Hraise model Hout) as (e & _ & He).
  rewrite Hok in He. discriminate He.
Qed.

Lemma invalid_model_raised_witness :
  (exists e, InvalidModelError e /\
     getFlameLength (sa := analytic_sa) "Byram" rows None false = Raise e) /\
  (exists e, InvalidModelError e /\
     getFlameHeight (sa := analytic_sa) "Simard" rows None None None None None
       None = Raise e) /\
  (exists e, InvalidModelError e /\
     getFlameTilt (sa := analytic_sa) "Simard" None None None None None None
       None = Raise e).
Proof.
  destruct (invalid_model_raised (sa := analytic_sa))
    as (_ & _ & HL & HH & HT).
  split; [| split].
  - apply (HL "Byram" rows None false).
    unfold model_names, model_dict. cbn [map fst In].
    intros H. repeat (destruct H as [H | H]; [discriminate H |]). exact H.
  - apply (HH "Simard" rows None None None None None None); discriminate.
  - apply (HT "Simard" None None None None None None None); discriminate.
Defined.

(** A flame of height 0 on a slope of 180 degrees: the "Finney" tilt relative
    to vertical is [- pi / 2], and the function returns 0. *)
Lemma getFlameTilt_clamped_witness :
  exists out : value R,
    getFlameTilt (sa := analytic_sa) "Finney" (Some (scalar 1))
      (Some (scalar 0)) (Some (scalar 180)) (Some "degrees") None None None
    = Ok out /\
    at_cell out (0%nat, 0%nat) = 0.
Proof.
  assert (Hrun : exists out : value R,
             getFlameTilt (sa := analytic_sa) "Finney" (Some (scalar 1))
               (Some (scalar 0)) (Some (scalar 180)) (Some "degrees")
               None None None = Ok out).
  { unfold getFlameTilt, flame_tilt_v, same_flame, truth.
    cbn [String.eqb Ascii.eqb Bool.eqb tag_is required bind scalar local2].
    rewrite (R_eqb_false 0 1) by lra. eexists. reflexivity. }
  destruct Hrun as [out Hout]. exists out. split; [exact Hout |].
  destruct (getFlameTilt_clamped (sa := analytic_sa) _ _ _ _ _ _ _ _ _ Hout)
    as (_ & tilt_v & Htilt & Hcells).
  destruct (Hcells (0%nat, 0%nat)) as (_ & Hneg & _).
  apply Hneg.
  unfold flame_tilt_v, same_flame, truth in Htilt.
  cbn [String.eqb Ascii.eqb Bool.eqb tag_is required bind scalar local2]
    in Htilt.
  rewrite (R_eqb_false 0 1) in Htilt by lra.
  injection Htilt as <-.
  cbn [at_cell scalar getDegrees getRadians local1 local2 ASin Sin
       ASin_cell Sin_cell analytic_sa analytic].
  match goal with
  | |- context [asin ?x] => replace x with 0 by (unfold Rdiv; ring)
  end.
  rewrite asin_0. pose proof PI_RGT_0. lra.
Defined.

(** No canopy in row 0, a base height far below the ground and a full cover:
    the crown ratio is still 0 and the first formula applies. *)
Lemma getMidFlameWS_canopy_zero_witness :
  at_cell rows (0%nat, 5%nat) = 0 /\
  at_cell (getMidFlameWS (sa := analytic_sa) (grid 10)
             (grid 100) rows (grid (-1000)) "SI")
          (0%nat, 5%nat)
  = 10 / (3.6 * 1.15) * 1.83
    / ln ((20 + 0.36 * (0.5 * 3.28084)) / (0.13 * (0.5 * 3.28084))).
Proof.
  assert (H0 : at_cell rows (0%nat, 5%nat) = 0) by reflexivity.
  split; [exact H0 |].
  exact (proj1 (getMidFlameWS_canopy_zero (sa := analytic_sa)
                  (grid 10) (grid 100) rows
                  (grid (-1000)) "SI" (0%nat, 5%nat)) H0).
Defined.

Lemma getMidFlameWS_unconverted_witness :
  "metric" <> "SI" /\ "metric" <> "IMP" /\
  at_cell (getMidFlameWS (sa := analytic_sa) (grid 10)
             (grid 100) rows (grid 0) "metric")
          (0%nat, 5%nat)
  = 10 * 1.83
    / ln ((20 + 0.36 * (0.5 * 3.28084)) / (0.13 * (0.5 * 3.28084))).
Proof.
  assert (H1 : "metric" <> "SI") by discriminate.
  assert (H2 : "metric" <> "IMP") by discriminate.
  split; [exact H1 |]. split; [exact H2 |].
  rewrite (getMidFlameWS_unconverted (sa := analytic_sa) _ _ _ _ "metric" H1 H2).
  cbv zeta. unfold rows, grid, Ln. cellwise.
  change (INR (fst (0%nat, 5%nat))) with 0.
  rewrite (R_eqb_true 0 0) by reflexivity.
  rewrite (R_leb_true (0 * 100 / 300) 5) by lra.
  reflexivity.
Defined.

Lemma Butler_requires_three_inputs_witness :
  (exists e, MissingParameterError e /\
     getFlameTilt (sa := analytic_sa) "Butler" None None None None
       (Some rows) (Some "kph") None = Raise e) /\
  (exists e, MissingParameterError e /\
     getFlameTilt (sa := analytic_sa) "Butler" None None None None
       (Some rows) None (Some rows) = Raise e) /\
  (exists e, MissingParameterError e /\
     getFlameTilt (sa := analytic_sa) "Butler" None None None None
       None (Some "kph") (Some rows) = Raise e) /\
  (exists out : value R,
     getFlameTilt (sa := analytic_sa) "Butler" None None None None
       (Some rows) (Some "kph") (Some rows) = Ok out).
Proof.
  split; [| split; [| split]].
  - apply (proj1 (Butler_requires_three_inputs (sa := analytic_sa)
                    None None None None (Some rows) (Some "kph") None)).
    right. right. reflexivity.
  - apply (proj1 (Butler_requires_three_inputs (sa := analytic_sa)
                    None None None None (Some rows) None (Some rows))).
    right. left. reflexivity.
  - apply (proj1 (Butler_requires_three_inputs (sa := analytic_sa)
                    None None None None None (Some "kph") (Some rows))).
    left. reflexivity.
  - apply (proj2 (Butler_requires_three_inputs (sa := analytic_sa)
                    None None None None (Some rows) (Some "kph") (Some rows)));
      discriminate.
Defined.

Lemma slope_units_checked_witness :
  (exists e1 e2, InvalidUnitError e1 /\ InvalidUnitError e2 /\
     getFlameHeight (sa := analytic_sa) "Finney" rows None None None
       (Some rows) (Some rows) (Some "radians") = Raise e1 /\
     getFlameTilt (sa := analytic_sa) "Finney" (Some rows) (Some rows)
       (Some rows) None None None None = Raise e2) /\
  flame_tilt_v (sa := analytic_sa) "Finney" (Some (scalar 2)) (Some (scalar 1))
    (Some (scalar 50)) (Some "percent") None None None
  = Ok (PI / 2
        - (ASin (sa := analytic_sa)
             (getRadians
                (1 * getDegrees
                       (Sin (sa := analytic_sa)
                          (getRadians 90 - ATan (sa := analytic_sa) (50 / 100)))
                 / 2))
           + ATan (sa := analytic_sa) (50 / 100)))%V.
Proof.
  destruct (slope_units_checked (sa := analytic_sa) rows None None None
              None None None) as [Hbad Hgood].
  split.
  - destruct (Hbad (Some rows) (Some rows) (Some rows) (Some rows)
                (Some "radians")) as (e1 & e2 & H1 & H2 & H3 & _);
      [discriminate | discriminate |].
    destruct (Hbad (Some rows) (Some rows) (Some rows) (Some rows) None)
      as (e1' & e2' & H1' & H2' & _ & H4); [discriminate | discriminate |].
    exists e1, e2'. repeat split; assumption.
  - destruct (Hgood "percent" (scalar 50)
                (ATan (sa := analytic_sa) (50 / 100)%V)) as [_ Htilt];
      [left; split; reflexivity |].
    apply Htilt. cbn [truth scalar local2].
    rewrite (R_eqb_false 1 2) by lra. reflexivity.
Defined.

Lemma Butler_unconverted_windspeed_witness :
  "knots" <> "kph" /\ "knots" <> "mph" /\
  getFlameTilt (sa := analytic_sa) "Butler" None None None None
    (Some rows) (Some "knots") (Some rows)
  = getFlameTilt (sa := analytic_sa) "Butler" None None None None
      (Some rows) (Some "mps") (Some rows).
Proof.
  assert (H1 : "knots" <> "kph") by discriminate.
  assert (H2 : "knots" <> "mph") by discriminate.
  split; [exact H1 |]. split; [exact H2 |].
  exact (proj2 (Butler_unconverted_windspeed (sa := analytic_sa)
                  None None None None rows rows "knots" H1 H2)).
Defined.

(** C5 (the code at a failing input): with flame length 2, flame height 1
    and slope 0 degrees given as scalars, [getFlameTilt] with model "Finney"
    returns 60 degrees.  With grids whose cells all hold these values the
    statement [if flame_height == flame_length] takes the truth value of the
    raster of the cell-wise comparison, here zero in every cell: when that is
    refused the call raises, when the object counts as true the result is 0
    in every cell, and only when it counts as false do the grids give the 60
    degrees of the scalars. *)
Theorem Finney_tilt_grid_is_not_scalar
    (raster_bool : (cell -> bool) -> option bool) :
  getFlameTilt (sa := analytic raster_bool) "Finney" (Some (scalar 2))
    (Some (scalar 1)) (Some (scalar 0)) (Some "degrees") None None None
  = Ok (Scalar 60) /\
  getFlameTilt (sa := analytic raster_bool) "Finney"
    (Some (grid 2)) (Some (grid 1)) (Some (grid 0)) (Some "degrees")
    None None None
  = match raster_bool (fun _ => false) with
    | None => Raise ValueError
    | Some true => Ok (Scalar 0)
    | Some false => Ok (grid 60)
    end.
Proof.
  pose proof PI_RGT_0 as Hpi.
  assert (Hhalf : asin (1 * (1 * 180 / PI) / 2 * PI / 180) = PI / 6).
  { replace (1 * (1 * 180 / PI) / 2 * PI / 180) with (sin (PI / 6))
      by (rewrite sin_PI6; field; lra).
    apply asin_sin. lra. }
  assert (Hsixty : (PI / 2 - (PI / 6 + 0 * PI / 180)) * 180 / PI = 60)
    by (field; lra).
  split.
  - unfold getFlameTilt, flame_tilt_v, same_flame, truth.
    cbn [String.eqb Ascii.eqb Bool.eqb tag_is required bind scalar local2].
    rewrite (R_eqb_false 1 2) by lra.
    cbn [bind getDegrees getRadians scalar local1 local2 local3 Con ASin Sin
         ASin_cell Sin_cell analytic].
    replace (90 * PI / 180 - 0 * PI / 180) with (PI / 2) by lra.
    rewrite sin_PI2, Hhalf, R_geb_true by lra.
    cbn [select]. rewrite Hsixty. reflexivity.
  - unfold getFlameTilt.
    rewrite (Finney_tilt_on_grids (sa := analytic raster_bool) 1 2 0).
    cbn [Raster_bool analytic]. rewrite (R_eqb_false 1 2) by lra.
    unfold grid.
    destruct (raster_bool (fun _ => false)) as [[|] |];
      cbn [bind getDegrees getRadians scalar local1 local2 local3 Con ASin Sin
           ASin_cell Sin_cell analytic at_cell];
      [ | | reflexivity].
    + rewrite R_geb_true by lra. cbn [select]. do 2 f_equal.
      unfold Rdiv. ring.
    + replace (90 * PI / 180 - 0 * PI / 180) with (PI / 2) by lra.
      rewrite sin_PI2, Hhalf, R_geb_true by lra.
      cbn [select]. rewrite Hsixty. reflexivity.
Qed.

(** * Further properties of the module *)

Lemma crown_ratio_factor (h b cover : R) :
  h <> 0 -> 0 <= b <= h -> 0 <= cover <= 1500 ->
  (h - b) / h * cover / 300 <= 5.
Proof.
  intros Hh Hb Hc.
  assert (Hpos : 0 < h) by lra.
  assert (Hr : 0 <= (h - b) / h <= 1).
  { split.
    - apply Rmult_le_pos; [lra |]. left. apply Rinv_0_lt_compat. exact Hpos.
    - apply (Rmult_le_reg_r h); [exact Hpos |].
      unfold Rdiv. rewrite Rmult_assoc, Rinv_l by exact Hh. lra. }
  nra.
Qed.

Lemma dict_get_Some_In {V : Type} (d : list (string * V)) (k : string) (v : V) :
  dict_get d k = Some v -> In k (map fst d).
Proof.
  induction d as [| [k' v'] d IH]; cbn [map fst In dict_get]; intros H.
  - discriminate H.
  - destruct (String.eqb_spec k k') as [-> | Hne]; [left; reflexivity |].
    right. exact (IH H).
Qed.

(** The registry holds three coefficients for "Finney_HEAD" and two for
    every other key. *)
Lemma model_dict_shape (model : string) (p : list R) :
  dict_get model_dict model = Some p ->
  (model = "Finney_HEAD" /\ exists a b c : R, p = [a; b; c]) \/
  (model <> "Finney_HEAD" /\ exists a b : R, p = [a; b]).
Proof.
  intros Hget. pose proof (dict_get_Some_In _ _ _ Hget) as Hin.
  unfold model_dict in Hin. cbn [map fst In] in Hin.
  repeat (destruct Hin as [<- | Hin];
          [ unfold model_dict in Hget;
            cbn [dict_get String.eqb Ascii.eqb Bool.eqb] in Hget;
            injection Hget as <-;
            first [ left; split; [reflexivity | do 3 eexists; reflexivity]
                  | right; split; [discriminate | do 2 eexists; reflexivity] ]
          | ]).
  contradiction.
Qed.

Section Further.

Context {sa : ArcpySA}.

(** ** Unit conversions *)


(** ** Mid-flame wind speed *)

(** X2: in a cell where the canopy base height lies between 0 and the canopy
    height and the canopy cover between 0 and 1500 (any percentage does),
    [f] is at most 5: [getMidFlameWS] never applies the formula with the
    square root there, and the output is the wind speed in m/s times
    [1.83 / ln((20 + 0.36 h) / (0.13 h))], [h] being the canopy height in
    feet, or [0.5 * 3.28084] where that is 0. *)
Theorem getMidFlameWS_first_formula
    (windspeed canopy_cover canopy_ht canopy_baseht : value R)
    (units : string) (c : cell) :
  0 <= at_cell canopy_baseht c <= at_cell canopy_ht c ->
  0 <= at_cell canopy_cover c <= 1500 ->
  let ws :=
    if (units =? "SI")%string then at_cell windspeed c / (3.6 * 1.15)
    else if (units =? "IMP")%string then at_cell windspeed c / 2.23694
    else at_cell windspeed c in
  let feet (x : R) := if (units =? "SI")%string then x * 3.28084 else x in
  let h :=
    if R_eqb (at_cell canopy_ht c) 0 then 0.5 * 3.28084
    else feet (at_cell canopy_ht c) in
  at_cell (getMidFlameWS windspeed canopy_cover canopy_ht canopy_baseht units) c
  = ws * 1.83 / Ln_cell ((20 + 0.36 * h) / (0.13 * h)).
Proof.
  intros Hb Hc. unfold getMidFlameWS, Ln, SquareRoot.
  destruct (units =? "SI")%string; [| destruct (units =? "IMP")%string];
    cbv zeta; cellwise; cases_R; try reflexivity; try lra;
    exfalso;
    match goal with
    | H : ~ _ <= 5 |- _ => apply H; try lra; apply crown_ratio_factor; lra
    end.
Qed.


(** ** Flame residence time and flame depth *)



(** ** Flame length *)

(** X6: the two modes of [getFlameLength] agree.  When [params_only] returns
    a tuple, it has two or three entries; the flame length computed for the
    same model is the power law [a * intensity^b] of a pair [(a, b)], and
    [a * intensity^b / flame_depth^c] of a triple [(a, b, c)] and a given
    flame depth. *)
Theorem getFlameLength_modes_agree (model : string) (fire_intensity : value R)
    (flame_depth : option (value R)) (p : list R) :
  getFlameLength model fire_intensity flame_depth true = Ok (ModelParams p) ->
  ((exists a b : R, p = [a; b]) \/ (exists a b c : R, p = [a; b; c])) /\
  (forall a b : R, p = [a; b] ->
     getFlameLength model fire_intensity flame_depth false
     = Ok (FlameLength (a * Power fire_intensity b)%V)) /\
  (forall (a b c : R) (depth : value R),
     p = [a; b; c] -> flame_depth = Some depth ->
     getFlameLength model fire_intensity flame_depth false
     = Ok (FlameLength (a * Power fire_intensity b / Power depth c)%V)).
Proof.
  unfold getFlameLength.
  destruct (dict_get model_dict model) as [params |] eqn:Hget;
    [| discriminate].
  intros H. injection H as ->.
  destruct (model_dict_shape model p Hget)
    as [[-> (a & b & c & ->)] | [Hne (a & b & ->)]].
  - split; [right; do 3 eexists; reflexivity |]. split.
    + intros a' b' H. discriminate H.
    + intros a' b' c' depth H ->. injection H as <- <- <-. reflexivity.
  - apply String.eqb_neq in Hne. rewrite Hne.
    split; [left; do 2 eexists; reflexivity |]. split.
    + intros a' b' H. injection H as <- <-. reflexivity.
    + intros a' b' c' depth H. discriminate H.
Qed.

(** ** Flame height, "Finney" *)

(** The "Finney" height read cell by cell, for either unit of the slope. *)
Lemma Finney_height_cells
    (flame_length flame_tilt slope_angle : value R) (units : string)
    (fire_type fire_intensity midflame_ws : option (value R)) :
  units = "percent" \/ units = "degrees" ->
  exists out : value R,
    getFlameHeight "Finney" flame_length fire_type fire_intensity midflame_ws
      (Some flame_tilt) (Some slope_angle) (Some units) = Ok out /\
    forall c : cell,
      let tilt_h := PI / 2 - at_cell flame_tilt c * PI / 180 in
      let slope_rad :=
        if (units =? "percent")%string
        then ATan_cell (at_cell slope_angle c / 100)
        else at_cell slope_angle c * PI / 180 in
      (at_cell slope_angle c <= 1 ->
       at_cell out c = at_cell flame_length c * Sin_cell tilt_h) /\
      (at_cell slope_angle c > 1 ->
       at_cell out c
       = at_cell flame_length c * Sin_cell (tilt_h - slope_rad)
         / Sin_cell (90 * PI / 180 - slope_rad)).
Proof.
  intros [-> | ->]; eexists; (split; [reflexivity |]);
    intros c; cbv zeta; cbn [String.eqb Ascii.eqb Bool.eqb];
    unfold Sin, ATan, getRadians; cellwise;
    split; intros H; cases_R; try reflexivity; lra.
Qed.

(** X7: in the "Finney" sub-model of [getFlameHeight] the flat-ground test
    [slope_angle <= 1] is made on the slope as given, percent or degrees
    alike.  In a cell where it holds the height is
    [flame_length * Sin(pi/2 - radians(flame_tilt))], whatever the slope and
    its unit; elsewhere it is
    [flame_length * Sin(tilt_h - slope_rad) / Sin(radians(90) - slope_rad)]. *)
Theorem getFlameHeight_Finney_cells
    (flame_length flame_tilt slope_angle : value R) (units : string)
    (fire_type fire_intensity midflame_ws : option (value R)) :
  units = "percent" \/ units = "degrees" ->
  exists out : value R,
    getFlameHeight "Finney" flame_length fire_type fire_intensity midflame_ws
      (Some flame_tilt) (Some slope_angle) (Some units) = Ok out /\
    forall c : cell,
      let tilt_h := PI / 2 - at_cell flame_tilt c * PI / 180 in
      let slope_rad :=
        if (units =? "percent")%string
        then ATan_cell (at_cell slope_angle c / 100)
        else at_cell slope_angle c * PI / 180 in
      (at_cell slope_angle c <= 1 ->
       at_cell out c = at_cell flame_length c * Sin_cell tilt_h) /\
      (at_cell slope_angle c > 1 ->
       at_cell out c
       = at_cell flame_length c * Sin_cell (tilt_h - slope_rad)
         / Sin_cell (90 * PI / 180 - slope_rad)).
Proof.
  intros Hunits.
  exact (Finney_height_cells flame_length flame_tilt slope_angle units
           fire_type fire_intensity midflame_ws Hunits).
Qed.


(** ** Flame tilt *)


(** X10: the "Standard" tilt is [degrees(ACos(flame_height / flame_length))]
    in every cell, the clamp at 0 never acting: with [ACos] between 0 and
    [pi] the result lies between 0 and 180 degrees, and it is 0 where the
    flame height is the flame length (other than 0), [ACos(1)] being 0. *)
Theorem getFlameTilt_Standard_range
    (flame_length flame_height : value R)
    (slope_angle : option (value R)) (slope_units : option string)
    (windspeed : option (value R)) (windspeed_units : option string)
    (canopy_ht : option (value R)) :
  (forall x : R, 0 <= ACos_cell x <= PI) ->
  ACos_cell 1 = 0 ->
  exists out : value R,
    getFlameTilt "Standard" (Some flame_length) (Some flame_height)
      slope_angle slope_units windspeed windspeed_units canopy_ht = Ok out /\
    forall c : cell,
      at_cell out c
      = ACos_cell (at_cell flame_height c / at_cell flame_length c) * 180 / PI
      /\
      0 <= at_cell out c <= 180 /\
      (at_cell flame_height c = at_cell flame_length c ->
       at_cell flame_length c <> 0 -> at_cell out c = 0).
Proof.
  intros Hrange Hone. pose proof PI_RGT_0 as Hpi.
  eexists. split; [reflexivity |]. intros c.
  rewrite at_cell_Con, at_cell_local2, at_cell_getDegrees.
  unfold ACos. cellwise.
  destruct (Hrange (at_cell flame_height c / at_cell flame_length c))
    as [Hlo Hhi].
  rewrite R_geb_true by lra.
  split; [reflexivity |]. split.
  - split.
    + apply Rge_le. apply degrees_nonneg. lra.
    + apply (Rmult_le_reg_r PI); [exact Hpi |].
      unfold Rdiv. rewrite Rmult_assoc, Rinv_l by lra. lra.
  - intros Heq Hne. rewrite Heq.
    replace (at_cell flame_length c / at_cell flame_length c) with 1
      by (field; exact Hne).
    rewrite Hone. unfold Rdiv. ring.
Qed.


(** X12: the degenerate case of the "Finney" tilt.  When flame height and
    flame length are the same scalar the result is 0 in every cell, whatever
    the slope; the same happens when both are left out, [None == None] being
    true: no missing-argument error is raised. *)
Theorem getFlameTilt_Finney_degenerate
    (x : R) (slope_angle : value R) (units : string)
    (windspeed : option (value R)) (windspeed_units : option string)
    (canopy_ht : option (value R)) :
  units = "percent" \/ units = "degrees" ->
  (exists out : value R,
     getFlameTilt "Finney" (Some (scalar x)) (Some (scalar x))
       (Some slope_angle) (Some units) windspeed windspeed_units canopy_ht
     = Ok out /\
     forall c : cell, at_cell out c = 0) /\
  (exists out : value R,
     getFlameTilt "Finney" None None (Some slope_angle) (Some units)
       windspeed windspeed_units canopy_ht = Ok out /\
     forall c : cell, at_cell out c = 0).
Proof.
  intros [-> | ->]; unfold getFlameTilt, flame_tilt_v, same_flame, truth;
    cbn [String.eqb Ascii.eqb Bool.eqb tag_is required bind scalar local2];
    rewrite (R_eqb_true x x) by reflexivity;
    cbn [bind]; split; eexists; (split; [reflexivity |]);
    intros c; rewrite at_cell_Con, ?at_cell_local2, at_cell_getDegrees;
    cbn [at_cell scalar]; rewrite R_geb_true by lra; unfold Rdiv; ring.
Qed.


(** ** What scales, and what fails *)


(** X15: with every optional grid supplied, [getFlameHeight] fails in two
    cases only: a model other than "Nelson" and "Finney", and "Finney" with a
    [slope_units] that is neither "percent" nor "degrees".  In particular
    "Nelson" never looks at [slope_units]. *)
Theorem getFlameHeight_failures (model : string)
    (flame_length fire_type fire_intensity midflame_ws flame_tilt slope_angle
       : value R) (slope_units : option string) (e : exn) :
  getFlameHeight model flame_length (Some fire_type) (Some fire_intensity)
    (Some midflame_ws) (Some flame_tilt) (Some slope_angle) slope_units
  = Raise e
  <->
  (model <> "Nelson" /\ model <> "Finney" /\
   e = Exception "Unable to calculate flame height - Model choice is invalid")
  \/
  (model = "Finney" /\
   slope_units <> Some "percent" /\ slope_units <> Some "degrees" /\
   e = Exception "Unable to calculate flame height - Slope tilt").
Proof.
  unfold getFlameHeight.
  destruct (String.eqb_spec model "Nelson") as [-> | HN].
  { cbn [required bind]. split; [discriminate |].
    intros [(H & _) | (H & _)]; [contradiction | discriminate H]. }
  destruct (String.eqb_spec model "Finney") as [-> | HF].
  - assert (Htag : forall u, tag_is slope_units u = true <-> slope_units = Some u).
    { intros u. destruct slope_units as [v |]; cbn [tag_is].
      - rewrite String.eqb_eq. split; congruence.
      - split; discriminate. }
    destruct (tag_is slope_units "percent") eqn:Hp.
    { cbn [required bind]. split; [discriminate |].
      intros [(_ & H & _) | (_ & H & _)]; [contradiction |].
      exfalso. apply H. apply Htag. exact Hp. }
    destruct (tag_is slope_units "degrees") eqn:Hd.
    { cbn [required bind]. split; [discriminate |].
      intros [(_ & H & _) | (_ & _ & H & _)]; [contradiction |].
      exfalso. apply H. apply Htag. exact Hd. }
    cbn [bind]. split.
    + intros H. injection H as <-. right.
      split; [reflexivity |].
      split; [intros H; apply Htag in H; congruence |].
      split; [intros H; apply Htag in H; congruence | reflexivity].
    + intros [(_ & H & _) | (_ & _ & _ & ->)]; [contradiction | reflexivity].
  - split.
    + intros H. injection H as <-. left. auto.
    + intros [(_ & _ & ->) | (H & _)]; [reflexivity | contradiction].
Qed.

(** X16: with a flame depth supplied, [getFlameLength] returns -- the
    parameters or the flame length -- exactly for the names of the registry;
    no tuple of the registry is too short for the formula that reads it. *)
Theorem getFlameLength_returns (model : string)
    (fire_intensity flame_depth : value R) (params_only : bool) :
  (exists r : flame_length_result,
      getFlameLength model fire_intensity (Some flame_depth) params_only = Ok r)
  <-> In model model_names.
Proof.
  unfold getFlameLength. split.
  - intros [r H].
    destruct (dict_get model_dict model) as [params |] eqn:Hget;
      [| discriminate H].
    exact (dict_get_Some_In _ _ _ Hget).
  - intros Hin. destruct (dict_get_In model_dict model Hin) as [params Hget].
    rewrite Hget. destruct params_only; [eexists; reflexivity |].
    destruct (model_dict_shape model params Hget)
      as [[-> (a & b & c & ->)] | [Hne (a & b & ->)]].
    + eexists. reflexivity.
    + apply String.eqb_neq in Hne. rewrite Hne. eexists. reflexivity.
Qed.

Lemma tag_is_true (tag : option string) (u : string) :
  tag_is tag u = true <-> tag = Some u.
Proof.
  destruct tag as [v |]; cbn [tag_is].
  - rewrite String.eqb_eq. split; congruence.
  - split; discriminate.
Qed.


End Further.

(** ** The further properties at concrete inputs *)

Lemma atan_nonneg_bound (x : R) : 0 <= x -> 0 <= atan x < PI / 2.
Proof.
  intros Hx. split; [| apply atan_bound].
  destruct Hx as [Hpos | <-].
  - rewrite <- atan_0. left. apply atan_increasing. exact Hpos.
  - rewrite atan_0. lra.
Qed.

Lemma acos_sin_shift (x : R) : 0 <= x <= PI -> acos (sin (PI / 2 - x)) = x.
Proof. intros Hx. rewrite sin_shift. apply acos_cos. exact Hx. Qed.

Lemma getMidFlameWS_first_formula_witness :
  at_cell (getMidFlameWS (sa := analytic_sa) (grid 10) (grid 50) (grid 20)
             (grid 5) "SI") (0%nat, 0%nat)
  = 10 / (3.6 * 1.15) * 1.83
    / ln ((20 + 0.36 * (20 * 3.28084)) / (0.13 * (20 * 3.28084))).
Proof.
  pose proof (getMidFlameWS_first_formula (sa := analytic_sa) (grid 10)
                (grid 50) (grid 20) (grid 5) "SI" (0%nat, 0%nat)) as H.
  cbn [at_cell grid String.eqb Ascii.eqb Bool.eqb] in H. cbv zeta in H.
  rewrite (R_eqb_false 20 0) in H by lra.
  apply H; lra.
Defined.



Lemma getFlameLength_modes_agree_witness :
  getFlameLength (sa := analytic_sa) "Byram_HEAD" rows None true
  = Ok (ModelParams [0.0775; 0.4600]) /\
  getFlameLength (sa := analytic_sa) "Byram_HEAD" rows None false
  = Ok (FlameLength (0.0775 * Power (sa := analytic_sa) rows 0.4600)%V).
Proof.
  assert (H : getFlameLength (sa := analytic_sa) "Byram_HEAD" rows None true
              = Ok (ModelParams [0.0775; 0.4600])) by reflexivity.
  split; [exact H |].
  destruct (getFlameLength_modes_agree (sa := analytic_sa) _ _ _ _ H)
    as (_ & Hpair & _).
  apply Hpair. reflexivity.
Defined.

Lemma getFlameHeight_Finney_cells_witness :
  exists out : value R,
    getFlameHeight (sa := analytic_sa) "Finney" (grid 2) None None None
      (Some (grid 30)) (Some rows) (Some "percent") = Ok out /\
    at_cell out (1%nat, 0%nat) = 2 * sin (PI / 2 - 30 * PI / 180) /\
    at_cell out (0%nat, 0%nat) = 2 * sin (PI / 2 - 30 * PI / 180).
Proof.
  destruct (getFlameHeight_Finney_cells (sa := analytic_sa) (grid 2) (grid 30)
              rows "percent" None None None (or_introl eq_refl))
    as (out & Hout & Hcells).
  exists out. split; [exact Hout |]. split.
  - apply (proj1 (Hcells (1%nat, 0%nat))). cbn [at_cell rows fst INR]. lra.
  - apply (proj1 (Hcells (0%nat, 0%nat))). cbn [at_cell rows fst INR]. lra.
Defined.



Lemma getFlameTilt_Standard_range_witness :
  exists out : value R,
    getFlameTilt (sa := analytic_sa) "Standard" (Some (grid 2)) (Some rows)
      None None None None None = Ok out /\
    0 <= at_cell out (1%nat, 0%nat) <= 180 /\
    at_cell out (2%nat, 0%nat) = 0.
Proof.
  destruct (getFlameTilt_Standard_range (sa := analytic_sa) (grid 2) rows
              None None None None None acos_bound acos_1)
    as (out & Hout & Hcells).
  exists out. split; [exact Hout |]. split.
  - apply (Hcells (1%nat, 0%nat)).
  - apply (Hcells (2%nat, 0%nat)); cbn [at_cell rows grid fst INR]; lra.
Defined.


Lemma getFlameTilt_Finney_degenerate_witness :
  exists out : value R,
    getFlameTilt (sa := analytic_sa) "Finney" None None (Some rows)
      (Some "degrees") None None None = Ok out /\
    at_cell out (7%nat, 0%nat) = 0.
Proof.
  destruct (getFlameTilt_Finney_degenerate (sa := analytic_sa) 0 rows
              "degrees" None None None (or_intror eq_refl))
    as (_ & out & Hout & Hcells).
  exists out. split; [exact Hout | apply Hcells].
Defined.

